(** * clean_history.py: the history clean-up script, embedded and verified

    The script checks two preconditions, then runs three shell commands in
    sequence (backup branch, [git-filter-repo], forced push) and reports
    on each step.  Everything it does is an effect on its surroundings, so
    the embedding is a small monad over an explicit process state:

    - the surrounding world (file system and the programs a shell can
      start) is a parameter of the development;
    - what the script prints and which commands it launched, with the
      outcome of each, are recorded in order;
    - [sys.exit] and exceptions are alternative completions of a
      computation.

    The main embedding (section [Script]) rests on two standing
    assumptions about the surroundings: no command is cut short by an
    interrupt, and writing to the standard output succeeds.  Module [Full]
    embeds the same three functions without them; where the assumptions
    hold the two embeddings agree ([calm_run_agrees]).  The file system of
    the examples (module [Sim]) knows files, directories and symbolic
    links. *)

From Stdlib Require Import String Ascii List ZArith Bool Lia.
Import ListNotations.
Open Scope string_scope.

(** ** Python values the script handles *)

(** The object returned by [subprocess.run]; with [capture_output=True,
    text=True] both streams are captured as text. *)
Record CompletedProcess : Type := mkCompleted {
  returncode : Z;
  stdout : string;
  stderr : string
}.

(** What a call of [subprocess.run(cmd, shell=True, ...)] can do: hand
    back a [CompletedProcess], or throw one of the exceptions that
    [subprocess.run] itself throws ([OSError], [ValueError],
    [UnicodeDecodeError], ... -- all of class [Exception]); [message] is
    the text [str(e)] of that exception.  An interrupt while the command
    runs is left to module [Full]. *)
Inductive run_outcome : Type :=
| Completes (result : CompletedProcess)
| Throws (message : string).

(** Exceptions that travel through the script.  [SystemExit] is what
    [sys.exit] raises; it derives from [BaseException] only, so a handler
    [except Exception] lets it pass. *)
Inductive py_exception : Type :=
| SystemExit (code : Z)
| PyException (message : string).

Inductive completion (A : Type) : Type :=
| Normal (value : A)
| Raise (exn : py_exception).
Arguments Normal {A} value.
Arguments Raise {A} exn.

(** One launched command together with what came of it. *)
Record event : Type := mkEvent {
  ev_cmd : string;
  ev_outcome : run_outcome
}.

(** The command reported success: it completed with exit status zero. *)
Definition succeeded (o : run_outcome) : bool :=
  match o with
  | Completes r => (returncode r =? 0)%Z
  | Throws _ => false
  end.

(** The diagnostic text of an outcome: captured standard error, or the
    text of the exception. *)
Definition diagnostic (o : run_outcome) : string :=
  match o with
  | Completes r => stderr r
  | Throws m => m
  end.

(** The newline character, written [\n] in the Python source. *)
Definition nl : string := String (ascii_of_nat 10) EmptyString.

(** [needle] occurs somewhere inside [s]. *)
Fixpoint contains (needle s : string) : bool :=
  prefix needle s ||
  match s with
  | EmptyString => false
  | String _ rest => contains needle rest
  end.

(** ** A concrete world, used to run the script on examples

    A directory tree given by the list of its entries, a current
    directory, and a table saying how each shell command ends.  Paths are
    lists of components from the root. *)
Module Sim.

Definition path : Type := list string.

(** A plain file, a directory, or a symbolic link with its target. *)
Inductive node : Type := File | Dir | Link (target : path).

Record world : Type := mkWorld {
  cwd : path;
  entries : list (path * node);
  respond : string -> run_outcome
}.

Fixpoint path_eqb (p q : path) : bool :=
  match p, q with
  | [], [] => true
  | a :: p', b :: q' => String.eqb a b && path_eqb p' q'
  | _, _ => false
  end.

(** The entry stored under the path [p], links not followed. *)
Fixpoint lookup (p : path) (es : list (path * node)) : option node :=
  match es with
  | [] => None
  | (q, k) :: rest => if path_eqb q p then Some k else lookup p rest
  end.

(** [os.stat]: the file or directory that [p] names, links followed.
    There is none when the name is missing, when a link leads to a missing
    name, or when more than [fuel] links would have to be followed (links
    that go in a circle). *)
Fixpoint stat (fuel : nat) (es : list (path * node)) (p : path) : option node :=
  match lookup p es with
  | None => None
  | Some (Link t) =>
      match fuel with
      | O => None
      | S fuel' => stat fuel' es t
      end
  | Some k => Some k
  end.

(** The entry called [name] in the current directory, and what it leads to. *)
Definition entry (name : string) (w : world) : option node :=
  lookup (cwd w ++ [name])%list (entries w).

Definition stat_here (name : string) (w : world) : option node :=
  stat (length (entries w)) (entries w) (cwd w ++ [name])%list.

(** [os.path.exists] on a one-component relative name: true when [os.stat]
    finds a file or a directory under that name in the current directory,
    false when it finds nothing -- also for a link that leads nowhere. *)
Definition os_path_exists (name : string) (w : world) : bool :=
  match stat_here name w with
  | Some _ => true
  | None => false
  end.

(** The current directory and the directories above it. *)
Definition upwards (p : path) : list path :=
  map (fun n => firstn n p) (seq 0 (S (length p))).

(** What git takes for a repository, reduced to the usual case: the
    current directory or a directory above it holds a directory [.git].
    (A plain file [.git] counts for git only when its content points to a
    repository; the files of this model have no content and do not.) *)
Definition is_git_repository (w : world) : bool :=
  existsb
    (fun d =>
       match stat (length (entries w)) (entries w) (d ++ [".git"])%list with
       | Some Dir => true
       | _ => false
       end)
    (upwards (cwd w)).

Definition subprocess_run (cmd : string) (w : world) : run_outcome * world :=
  (respond w cmd, w).

Definition ok : run_outcome := Completes (mkCompleted 0 "" "").

Definition failed (rc : Z) (err : string) : run_outcome :=
  Completes (mkCompleted rc "" err).

(** A checkout of a repository at [/repo], with [backend/] inside. *)
Definition checkout : list (path * node) :=
  [ (["repo"], Dir);
    (["repo"; ".git"], Dir);
    (["repo"; "backend"], Dir);
    (["repo"; "backend"; ".env"], File) ].

(** Command tables.  [all_ok]: every command succeeds. *)
Definition all_ok : string -> run_outcome := fun _ => ok.

(** The table [t] with the answer to [cmd] replaced by [o]. *)
Definition override (t : string -> run_outcome) (cmd : string) (o : run_outcome)
  : string -> run_outcome :=
  fun c => if String.eqb c cmd then o else t c.

Definition in_repo (t : string -> run_outcome) : world :=
  mkWorld ["repo"] checkout t.

(** The backup branch is already there, so [git branch] refuses. *)
Definition branch_taken : world :=
  in_repo (override all_ok "git branch backup-before-cleanup"
             (failed 128 "fatal: a branch named 'backup-before-cleanup' already exists")).

(** The tool is not installed: [which] ends with status 1. *)
Definition tool_missing : world :=
  in_repo (override all_ok "which git-filter-repo" (failed 1 "")).

(** The rewrite fails. *)
Definition rewrite_fails : world :=
  in_repo (override all_ok
             "git-filter-repo --path backend/.env --invert-paths --force"
             (failed 1 "Aborting: Refusing to destructively overwrite repo history")).

(** The remote rejects the push. *)
Definition push_rejected : world :=
  in_repo (override all_ok "git push origin main --force"
             (failed 1 "remote: error: GH006: Protected branch update failed")).

(** The shell cannot even be started. *)
Definition no_shell : world :=
  in_repo (fun _ => Throws "[Errno 2] No such file or directory: '/bin/sh'").

(** Started in [/repo/backend], a subdirectory of the checkout. *)
Definition in_subdirectory : world :=
  mkWorld ["repo"; "backend"] checkout all_ok.

(** Started in a directory where [.git] is a plain file. *)
Definition dot_git_is_file : world :=
  mkWorld ["tmp"] [ (["tmp"], Dir); (["tmp"; ".git"], File) ] all_ok.

(** Started in a directory that has nothing to do with git. *)
Definition outside : world :=
  mkWorld ["tmp"] [ (["tmp"], Dir) ] all_ok.

(** Started in a directory that is no repository but holds a plain file
    [.git]: the tool is installed, and every git command refuses. *)
Definition bogus_dot_git : world :=
  mkWorld ["tmp"] [ (["tmp"], Dir); (["tmp"; ".git"], File) ]
    (override (fun _ => failed 128 "fatal: invalid gitfile format: .git")
       "which git-filter-repo" ok).

(** Started in a directory where [.git] is a link to a name that is gone. *)
Definition dot_git_dangling : world :=
  mkWorld ["tmp"]
    [ (["tmp"], Dir); (["tmp"; ".git"], Link ["tmp"; "gone"]) ] all_ok.

(** Started in a directory where [.git] is a link to the [.git] of the
    checkout. *)
Definition dot_git_linked : world :=
  mkWorld ["work"]
    ((["work"], Dir) :: (["work"; ".git"], Link ["repo"; ".git"]) :: checkout)
    all_ok.

End Sim.

(** ** The script with nothing taken for granted

    The embedding of the script further down rests on two standing
    assumptions: no command is cut short by an interrupt, and writing to
    the standard output succeeds.  This module drops both.  A call of
    [subprocess.run] can also end in a [KeyboardInterrupt], which is no
    [Exception] and so passes [except Exception]; an exception of
    [subprocess.run] can come after the command has already ended, and then
    the command has an exit status; and [print] can raise.  The functions
    are the same, line by line. *)
Module Full.

(** How a call of [subprocess.run(cmd, shell=True, capture_output=True,
    text=True)] ends.
    - [Returned r]: it returns [r].
    - [Raised c m]: it raises an exception of class [Exception] with text
      [m].  [c] is the exit status of the command when the command ran to
      its end before the exception ([UnicodeDecodeError], when captured
      output is not text in the expected encoding), and nothing when the
      command never ran ([OSError], [ValueError]).
    - [Interrupted]: it raises [KeyboardInterrupt], after a SIGINT that
      arrived while the command was running. *)
Inductive run_ending : Type :=
| Returned (result : CompletedProcess)
| Raised (exit_code : option Z) (message : string)
| Interrupted.

(** The exit status of the command itself, when it has one. *)
Definition exit_code_of (e : run_ending) : option Z :=
  match e with
  | Returned r => Some (returncode r)
  | Raised c _ => c
  | Interrupted => None
  end.

(** An ending as the first embedding sees it.  An interrupt has no
    counterpart there; the value given for it is never looked at where
    interrupts are excluded. *)
Definition plain_outcome (e : run_ending) : run_outcome :=
  match e with
  | Returned r => Completes r
  | Raised _ m => Throws m
  | Interrupted => Throws "KeyboardInterrupt"
  end.

(** What travels up the call stack: one of the exceptions of the first
    embedding, or [KeyboardInterrupt]. *)
Inductive raised : Type :=
| Plain (e : py_exception)
| KeyboardInterrupt.

Inductive result (A : Type) : Type :=
| Value (a : A)
| Exc (e : raised).
Arguments Value {A} a.
Arguments Exc {A} e.

Definition plain_result {A} (r : result A) : option (completion A) :=
  match r with
  | Value a => Some (Normal a)
  | Exc (Plain e) => Some (Raise e)
  | Exc KeyboardInterrupt => None
  end.

Record launch : Type := mkLaunch {
  launch_cmd : string;
  launch_ending : run_ending
}.

Definition plain_launch (l : launch) : event :=
  mkEvent (launch_cmd l) (plain_outcome (launch_ending l)).

(** The other way round: an outcome of the first embedding as an ending.
    An exception there comes before the command has run. *)
Definition of_outcome (o : run_outcome) : run_ending :=
  match o with
  | Completes r => Returned r
  | Throws m => Raised None m
  end.

(** The concrete world of the first embedding as a world of this one: its
    commands end as its table says, and every line can be written. *)
Definition sim_run (cmd : string) (w : Sim.world) : run_ending * Sim.world :=
  (of_outcome (Sim.respond w cmd), w).

Definition sim_write (_ : string) (_ : Sim.world) : option string := None.

(** How the interpreter ends: with an exit status, or killed by the
    interrupt it did not handle (a shell shows that as status 130). *)
Inductive ending : Type :=
| Exit (code : Z)
| KilledByInterrupt.

Section Script.

Variable World : Type.
Variable os_path_exists : string -> World -> bool.
Variable subprocess_run : string -> World -> run_ending * World.

(** Writing a line to the standard output: nothing when it is written,
    the text of the exception when it is not ([UnicodeEncodeError] on an
    output that cannot encode the line, [BrokenPipeError], ...). *)
Variable stdout_write : string -> World -> option string.

Record process : Type := mkProcess {
  world : World;
  printed : list string;
  launched : list launch
}.

Definition Py (A : Type) : Type := process -> result A * process.

Definition ret {A} (a : A) : Py A := fun p => (Value a, p).

Definition bind {A B} (m : Py A) (k : A -> Py B) : Py B :=
  fun p =>
    match m p with
    | (Value a, p') => k a p'
    | (Exc e, p') => (Exc e, p')
    end.

Notation "x <- m ;; k" := (bind m (fun x => k))
  (at level 61, m at next level, right associativity).
Notation "' pat <- m ;; k" := (bind m (fun x => match x with pat => k end))
  (at level 61, pat pattern, m at next level, right associativity).
Notation "m >> k" := (bind m (fun _ => k))
  (at level 61, right associativity).

(** [print(s)] *)
Definition print (s : string) : Py unit :=
  fun p =>
    match stdout_write s (world p) with
    | None => (Value tt, mkProcess (world p) (printed p ++ [s])%list (launched p))
    | Some m => (Exc (Plain (PyException m)), p)
    end.

(** [sys.exit(code)] *)
Definition sys_exit {A} (code : Z) : Py A :=
  fun p => (Exc (Plain (SystemExit code)), p).

(** [os.path.exists(name)] *)
Definition path_exists (name : string) : Py bool :=
  fun p => (Value (os_path_exists name (world p)), p).

(** [subprocess.run(cmd, shell=True, capture_output=True, text=True)] *)
Definition run (cmd : string) : Py CompletedProcess :=
  fun p =>
    let (e, w') := subprocess_run cmd (world p) in
    let p' := mkProcess w' (printed p) (launched p ++ [mkLaunch cmd e])%list in
    match e with
    | Returned r => (Value r, p')
    | Raised _ m => (Exc (Plain (PyException m)), p')
    | Interrupted => (Exc KeyboardInterrupt, p')
    end.

(** [try: body  except Exception as e: handler(str(e))] *)
Definition try_except_Exception {A} (body : Py A) (handler : string -> Py A) : Py A :=
  fun p =>
    match body p with
    | (Exc (Plain (PyException m)), p') => handler m p'
    | other => other
    end.

Definition run_command (cmd : string) : Py (bool * string * string) :=
  try_except_Exception
    (result <- run cmd ;;
     ret ((returncode result =? 0)%Z, stdout result, stderr result))
    (fun e => ret (false, "", e)).

Definition filter_cmd : list string :=
  [ "git-filter-repo";
    "--path backend/.env";
    "--invert-paths";
    "--force" ].

Definition clean_git_history : Py bool :=
  print "Cleaning git history to remove secrets..." >>
  '(success, _, _) <- run_command "git branch backup-before-cleanup" ;;
  (if success : bool
   then print "✓ Created backup branch: backup-before-cleanup"
   else print "⚠ Warning: Could not create backup branch") >>
  print "Running git-filter-repo to remove .env files from history..." >>
  '(success, _, stderr) <- run_command (String.concat " " filter_cmd) ;;
  if success : bool then
    print "✓ Successfully cleaned git history" >>
    print "Force pushing to remote..." >>
    '(push_success, _, push_stderr) <- run_command "git push origin main --force" ;;
    if push_success : bool then
      print "✓ Successfully pushed cleaned history to remote" >>
      ret true
    else
      print "✗ Failed to push to remote:" >>
      print push_stderr >>
      ret false
  else
    print "✗ Failed to clean git history:" >>
    print stderr >>
    ret false.

(** The body of [if __name__ == "__main__":]. *)
Definition main : Py unit :=
  here <- path_exists ".git" ;;
  (if negb here then
     print "Error: Not in a git repository" >>
     sys_exit 1
   else ret tt) >>
  '(success, _, _) <- run_command "which git-filter-repo" ;;
  (if negb success then
     print "Error: git-filter-repo not found. Please install it first." >>
     print "You can install it with: pip3 install git-filter-repo" >>
     sys_exit 1
   else ret tt) >>
  cleaned <- clean_git_history ;;
  if cleaned : bool then
    print (nl ++ "🎉 Git history cleaned successfully!") >>
    print "If you need to restore, use: git checkout backup-before-cleanup"
  else
    print (nl ++ "❌ Failed to clean git history") >>
    sys_exit 1.

(** The end of the interpreter: status 0 when the script runs off its
    end, the argument of [sys.exit], status 1 after an exception nobody
    caught, death by the signal after an interrupt. *)
Definition how_it_ends {A} (c : result A) : ending :=
  match c with
  | Value _ => Exit 0
  | Exc (Plain (SystemExit code)) => Exit code
  | Exc (Plain (PyException _)) => Exit 1
  | Exc KeyboardInterrupt => KilledByInterrupt
  end.

Definition start (w : World) : process := mkProcess w [] [].

Definition run_script (w : World) : result unit * process := main (start w).

Definition status (w : World) : ending := how_it_ends (fst (run_script w)).
Definition output (w : World) : list string := printed (snd (run_script w)).
Definition trace (w : World) : list launch := launched (snd (run_script w)).

(** The world as the first embedding looks at it. *)
Definition plain_run (cmd : string) (w : World) : run_outcome * World :=
  (plain_outcome (fst (subprocess_run cmd w)), snd (subprocess_run cmd w)).

End Script.

Arguments world {World} p.
Arguments printed {World} p.
Arguments launched {World} p.

(** A small world to run examples in: [.git] is there, every line can be
    written but those listed, and a table says how each command ends. *)
Record lab : Type := mkLab {
  endings : string -> run_ending;
  unprintable : list string
}.

Definition lab_exists (_ : string) (_ : lab) : bool := true.

Definition lab_run (cmd : string) (w : lab) : run_ending * lab := (endings w cmd, w).

Definition lab_write (s : string) (w : lab) : option string :=
  if existsb (String.eqb s) (unprintable w)
  then Some "'ascii' codec can't encode character"
  else None.

Definition quiet : string -> run_ending := fun _ => Returned (mkCompleted 0 "" "").

Definition with_ending (t : string -> run_ending) (cmd : string) (e : run_ending)
  : string -> run_ending :=
  fun c => if String.eqb c cmd then e else t c.

(** A command that sends SIGINT to the script and one that ends with
    status 0 after writing a byte that is no text. *)
Definition odd_commands : lab :=
  mkLab
    (with_ending
       (with_ending quiet "kill -INT $PPID; sleep 1" Interrupted)
       "printf '\377'"
       (Raised (Some 0%Z)
          "'utf-8' codec can't decode byte 0xff in position 0: invalid start byte"))
    [].

(** The push is interrupted. *)
Definition push_interrupted : lab :=
  mkLab (with_ending quiet "git push origin main --force" Interrupted) [].

(** The output cannot take the check mark of the backup line. *)
Definition ascii_terminal : lab :=
  mkLab quiet [ "✓ Created backup branch: backup-before-cleanup" ].

End Full.

(** ** The script *)

Section Script.

(** The world the script runs in, with the two library calls through
    which the script looks at it. *)
Variable World : Type.
Variable os_path_exists : string -> World -> bool.
Variable subprocess_run : string -> World -> run_outcome * World.

(** State of the running process. *)
Record process : Type := mkProcess {
  world : World;
  printed : list string;
  launched : list event
}.

Definition Py (A : Type) : Type := process -> completion A * process.

Definition ret {A} (a : A) : Py A := fun p => (Normal a, p).

Definition bind {A B} (m : Py A) (k : A -> Py B) : Py B :=
  fun p =>
    match m p with
    | (Normal a, p') => k a p'
    | (Raise e, p') => (Raise e, p')
    end.

Notation "x <- m ;; k" := (bind m (fun x => k))
  (at level 61, m at next level, right associativity).
Notation "' pat <- m ;; k" := (bind m (fun x => match x with pat => k end))
  (at level 61, pat pattern, m at next level, right associativity).
Notation "m >> k" := (bind m (fun _ => k))
  (at level 61, right associativity).

(** [print(s)]: one more entry of the output, the text of that call
    (the line end that [print] adds is left implicit).  Writing to the
    standard output is taken to succeed; module [Full] has the [print]
    that can raise. *)
Definition print (s : string) : Py unit :=
  fun p => (Normal tt, mkProcess (world p) (printed p ++ [s])%list (launched p)).

(** [sys.exit(code)] *)
Definition sys_exit {A} (code : Z) : Py A :=
  fun p => (Raise (SystemExit code), p).

(** [os.path.exists(name)] *)
Definition path_exists (name : string) : Py bool :=
  fun p => (Normal (os_path_exists name (world p)), p).

(** [subprocess.run(cmd, shell=True, capture_output=True, text=True)] *)
Definition run (cmd : string) : Py CompletedProcess :=
  fun p =>
    let (o, w') := subprocess_run cmd (world p) in
    let p' := mkProcess w' (printed p) (launched p ++ [mkEvent cmd o])%list in
    match o with
    | Completes r => (Normal r, p')
    | Throws m => (Raise (PyException m), p')
    end.

(** [try: body  except Exception as e: handler(str(e))] *)
Definition try_except_Exception {A} (body : Py A) (handler : string -> Py A) : Py A :=
  fun p =>
    match body p with
    | (Raise (PyException m), p') => handler m p'
    | other => other
    end.

Definition run_command (cmd : string) : Py (bool * string * string) :=
  try_except_Exception
    (result <- run cmd ;;
     ret ((returncode result =? 0)%Z, stdout result, stderr result))
    (fun e => ret (false, "", e)).

Definition filter_cmd : list string :=
  [ "git-filter-repo";
    "--path backend/.env";
    "--invert-paths";
    "--force" ].

Definition clean_git_history : Py bool :=
  print "Cleaning git history to remove secrets..." >>
  '(success, _, _) <- run_command "git branch backup-before-cleanup" ;;
  (if success : bool
   then print "✓ Created backup branch: backup-before-cleanup"
   else print "⚠ Warning: Could not create backup branch") >>
  print "Running git-filter-repo to remove .env files from history..." >>
  '(success, _, stderr) <- run_command (String.concat " " filter_cmd) ;;
  if success : bool then
    print "✓ Successfully cleaned git history" >>
    print "Force pushing to remote..." >>
    '(push_success, _, push_stderr) <- run_command "git push origin main --force" ;;
    if push_success : bool then
      print "✓ Successfully pushed cleaned history to remote" >>
      ret true
    else
      print "✗ Failed to push to remote:" >>
      print push_stderr >>
      ret false
  else
    print "✗ Failed to clean git history:" >>
    print stderr >>
    ret false.

(** The body of [if __name__ == "__main__":]. *)
Definition main : Py unit :=
  here <- path_exists ".git" ;;
  (if negb here then
     print "Error: Not in a git repository" >>
     sys_exit 1
   else ret tt) >>
  '(success, _, _) <- run_command "which git-filter-repo" ;;
  (if negb success then
     print "Error: git-filter-repo not found. Please install it first." >>
     print "You can install it with: pip3 install git-filter-repo" >>
     sys_exit 1
   else ret tt) >>
  cleaned <- clean_git_history ;;
  if cleaned : bool then
    print (nl ++ "🎉 Git history cleaned successfully!") >>
    print "If you need to restore, use: git checkout backup-before-cleanup"
  else
    print (nl ++ "❌ Failed to clean git history") >>
    sys_exit 1.

(** The interpreter's exit status: 0 when the script runs off its end,
    the argument of [sys.exit], 1 after an exception nobody caught. *)
Definition exit_status {A} (c : completion A) : Z :=
  match c with
  | Normal _ => 0
  | Raise (SystemExit code) => code
  | Raise (PyException _) => 1
  end%Z.

Definition start (w : World) : process := mkProcess w [] [].

(** One run of the script from world [w], and the three things an
    observer sees of it. *)
Definition run_script (w : World) : completion unit * process := main (start w).

Definition status (w : World) : Z := exit_status (fst (run_script w)).
Definition output (w : World) : list string := printed (snd (run_script w)).
Definition trace (w : World) : list event := launched (snd (run_script w)).

(** ** Vocabulary of the properties *)

(** The four command lines the script hands to the shell. *)
Definition which_cmd : string := "which git-filter-repo".
Definition backup_cmd : string := "git branch backup-before-cleanup".
Definition rewrite_cmd : string := String.concat " " filter_cmd.
Definition push_cmd : string := "git push origin main --force".

(** The standard output a command left behind, empty after an exception. *)
Definition captured (o : run_outcome) : string :=
  match o with
  | Completes r => stdout r
  | Throws _ => ""
  end.

(** The world after [cmd] has run in [w], and what came of [cmd]. *)
Definition after (cmd : string) (w : World) : World := snd (subprocess_run cmd w).
Definition outcome (cmd : string) (w : World) : run_outcome := fst (subprocess_run cmd w).

(** The first lines the script can print, and the two lines about the
    backup branch. *)
Definition not_a_repository_line : string := "Error: Not in a git repository".
Definition tool_missing_line : string :=
  "Error: git-filter-repo not found. Please install it first.".
Definition install_hint_line : string :=
  "You can install it with: pip3 install git-filter-repo".
Definition backup_created_line : string :=
  "✓ Created backup branch: backup-before-cleanup".
Definition backup_warning_line : string :=
  "⚠ Warning: Could not create backup branch".

(** The line printed about the backup branch. *)
Definition backup_report (o : run_outcome) : string :=
  if succeeded o then backup_created_line else backup_warning_line.

(** The opening lines of [clean_git_history], up to the launch of the
    rewrite. *)
Definition preamble (ob : run_outcome) : list string :=
  [ "Cleaning git history to remove secrets...";
    backup_report ob;
    "Running git-filter-repo to remove .env files from history..." ].

(** [cmd] was handed to the shell at some point of the trace [t]. *)
Definition launches (cmd : string) (t : list event) : Prop :=
  exists o, In (mkEvent cmd o) t.

(** In the trace [t], [first] was launched with an outcome satisfying
    [good], no launch of [second] came earlier, and [second] was launched
    afterwards. *)
Definition ran_before (first second : string) (good : run_outcome -> Prop)
  (t : list event) : Prop :=
  exists pre o post,
    t = (pre ++ mkEvent first o :: post)%list /\
    good o /\
    ~ launches second pre /\
    launches second post.

(** The closing lines of the script. *)
Definition celebration_line : string := nl ++ "🎉 Git history cleaned successfully!".
Definition restore_line : string :=
  "If you need to restore, use: git checkout backup-before-cleanup".
Definition failure_line : string := nl ++ "❌ Failed to clean git history".

(** The five ways a run can go: whether [.git] was found, the exit
    status, everything printed, every command launched. *)
Inductive run_shape : bool -> Z -> list string -> list event -> Prop :=
| NotARepository :
    run_shape false 1 [ not_a_repository_line ] []
| ToolMissing ow :
    succeeded ow = false ->
    run_shape true 1
      [ tool_missing_line;
        install_hint_line ]
      [ mkEvent which_cmd ow ]
| RewriteFailed ow ob orw :
    succeeded ow = true ->
    succeeded orw = false ->
    run_shape true 1
      (preamble ob ++
       [ "✗ Failed to clean git history:";
         diagnostic orw;
         failure_line ])%list
      [ mkEvent which_cmd ow; mkEvent backup_cmd ob; mkEvent rewrite_cmd orw ]
| PushFailed ow ob orw op :
    succeeded ow = true ->
    succeeded orw = true ->
    succeeded op = false ->
    run_shape true 1
      (preamble ob ++
       [ "✓ Successfully cleaned git history";
         "Force pushing to remote...";
         "✗ Failed to push to remote:";
         diagnostic op;
         failure_line ])%list
      [ mkEvent which_cmd ow; mkEvent backup_cmd ob; mkEvent rewrite_cmd orw;
        mkEvent push_cmd op ]
| Cleaned ow ob orw op :
    succeeded ow = true ->
    succeeded orw = true ->
    succeeded op = true ->
    run_shape true 0
      (preamble ob ++
       [ "✓ Successfully cleaned git history";
         "Force pushing to remote...";
         "✓ Successfully pushed cleaned history to remote";
         celebration_line;
         restore_line ])%list
      [ mkEvent which_cmd ow; mkEvent backup_cmd ob; mkEvent rewrite_cmd orw;
        mkEvent push_cmd op ].

(** ** How the pieces compute *)

Lemma rewrite_cmd_line :
  rewrite_cmd = "git-filter-repo --path backend/.env --invert-paths --force".
Proof. reflexivity. Qed.

(** [run_command] in one equation: the triple it returns and the state it
    leaves. *)
Lemma run_command_eq (cmd : string) (p : process) :
  run_command cmd p =
  (Normal (succeeded (outcome cmd (world p)),
           captured (outcome cmd (world p)),
           diagnostic (outcome cmd (world p))),
   mkProcess (after cmd (world p)) (printed p)
             (launched p ++ [mkEvent cmd (outcome cmd (world p))])%list).
Proof.
  unfold run_command, try_except_Exception, bind, run, ret, outcome, after.
  destruct (subprocess_run cmd (world p)) as [o w'].
  destruct o as [r | m]; reflexivity.
Qed.

Ltac tidy_lists := repeat rewrite <- app_assoc; cbn [app].

(** [clean_git_history] in one equation, from any state [p]: the outcomes
    of the three commands, each run in the world its predecessor left. *)
Lemma clean_git_history_eq (p : process) :
  let w1 := after backup_cmd (world p) in
  let w2 := after rewrite_cmd w1 in
  let w3 := after push_cmd w2 in
  let ob := outcome backup_cmd (world p) in
  let orw := outcome rewrite_cmd w1 in
  let op := outcome push_cmd w2 in
  clean_git_history p =
  if succeeded orw then
    if succeeded op then
      (Normal true,
       mkProcess w3
         (printed p ++ preamble ob ++
          [ "✓ Successfully cleaned git history";
            "Force pushing to remote...";
            "✓ Successfully pushed cleaned history to remote" ])%list
         (launched p ++
          [ mkEvent backup_cmd ob; mkEvent rewrite_cmd orw; mkEvent push_cmd op ])%list)
    else
      (Normal false,
       mkProcess w3
         (printed p ++ preamble ob ++
          [ "✓ Successfully cleaned git history";
            "Force pushing to remote...";
            "✗ Failed to push to remote:";
            diagnostic op ])%list
         (launched p ++
          [ mkEvent backup_cmd ob; mkEvent rewrite_cmd orw; mkEvent push_cmd op ])%list)
  else
    (Normal false,
     mkProcess w2
       (printed p ++ preamble ob ++
        [ "✗ Failed to clean git history:"; diagnostic orw ])%list
       (launched p ++ [ mkEvent backup_cmd ob; mkEvent rewrite_cmd orw ])%list).
Proof.
  intros w1 w2 w3 ob orw op.
  unfold clean_git_history, preamble, backup_report.
  unfold bind at 1. cbn [print].
  unfold bind at 1. rewrite run_command_eq. cbn [world printed launched].
  fold backup_cmd ob w1.
  assert (Hreport : forall q,
    (if succeeded ob
     then print "✓ Created backup branch: backup-before-cleanup"
     else print "⚠ Warning: Could not create backup branch") q =
    (Normal tt,
     mkProcess (world q)
       (printed q ++
        [ if succeeded ob
          then "✓ Created backup branch: backup-before-cleanup"
          else "⚠ Warning: Could not create backup branch" ])%list
       (launched q))).
  { intro q. destruct (succeeded ob); reflexivity. }
  unfold bind at 1. rewrite Hreport. cbn [world printed launched].
  unfold bind at 1. cbn [print world printed launched].
  unfold bind at 1. rewrite run_command_eq. cbn [world printed launched].
  fold rewrite_cmd. fold orw w2.
  destruct (succeeded orw).
  - unfold bind at 1. cbn [print world printed launched].
    unfold bind at 1. cbn [print world printed launched].
    unfold bind at 1. rewrite run_command_eq. cbn [world printed launched].
    fold push_cmd. fold op w3.
    destruct (succeeded op); unfold bind, print, ret; cbn [world printed launched];
      tidy_lists; reflexivity.
  - unfold bind, print, ret; cbn [world printed launched]; tidy_lists; reflexivity.
Qed.

(** The whole script in one equation: the outcomes of the four commands,
    each run in the world its predecessor left, decide everything. *)
Lemma main_eq (w : World) :
  let w0 := after which_cmd w in
  let w1 := after backup_cmd w0 in
  let w2 := after rewrite_cmd w1 in
  let w3 := after push_cmd w2 in
  let ow := outcome which_cmd w in
  let ob := outcome backup_cmd w0 in
  let orw := outcome rewrite_cmd w1 in
  let op := outcome push_cmd w2 in
  main (start w) =
  if os_path_exists ".git" w then
    if succeeded ow then
      if succeeded orw then
        if succeeded op then
          (Normal tt,
           mkProcess w3
             (preamble ob ++
              [ "✓ Successfully cleaned git history";
                "Force pushing to remote...";
                "✓ Successfully pushed cleaned history to remote";
                celebration_line;
                restore_line ])%list
             [ mkEvent which_cmd ow; mkEvent backup_cmd ob;
               mkEvent rewrite_cmd orw; mkEvent push_cmd op ])
        else
          (Raise (SystemExit 1),
           mkProcess w3
             (preamble ob ++
              [ "✓ Successfully cleaned git history";
                "Force pushing to remote...";
                "✗ Failed to push to remote:";
                diagnostic op;
                failure_line ])%list
             [ mkEvent which_cmd ow; mkEvent backup_cmd ob;
               mkEvent rewrite_cmd orw; mkEvent push_cmd op ])
      else
        (Raise (SystemExit 1),
         mkProcess w2
           (preamble ob ++
            [ "✗ Failed to clean git history:"; diagnostic orw; failure_line ])%list
           [ mkEvent which_cmd ow; mkEvent backup_cmd ob; mkEvent rewrite_cmd orw ])
    else
      (Raise (SystemExit 1),
       mkProcess w0 [ tool_missing_line; install_hint_line ] [ mkEvent which_cmd ow ])
  else
    (Raise (SystemExit 1), mkProcess w [ not_a_repository_line ] []).
Proof.
  intros w0 w1 w2 w3 ow ob orw op.
  unfold main, start.
  unfold bind at 1. cbn [path_exists world].
  destruct (os_path_exists ".git" w); [| reflexivity].
  cbn [negb]. unfold bind at 1. cbn [ret].
  unfold bind at 1. rewrite run_command_eq. cbn [world printed launched app].
  fold which_cmd. fold ow w0.
  destruct (succeeded ow); [| reflexivity].
  cbn [negb]. unfold bind at 1. cbn [ret].
  unfold bind at 1. rewrite clean_git_history_eq. cbn [world printed launched app].
  fold w1. fold ob orw w2. fold op w3.
  destruct (succeeded orw); [destruct (succeeded op) |];
    unfold bind, print, sys_exit; cbn [world printed launched];
    tidy_lists; reflexivity.
Qed.

(** The exit status as a function of what the world answers. *)
Lemma status_eq (w : World) :
  let w1 := after backup_cmd (after which_cmd w) in
  status w =
  if os_path_exists ".git" w
     && succeeded (outcome which_cmd w)
     && succeeded (outcome rewrite_cmd w1)
     && succeeded (outcome push_cmd (after rewrite_cmd w1))
  then 0%Z else 1%Z.
Proof.
  intro w1. unfold status, run_script. rewrite main_eq. fold w1.
  destruct (os_path_exists ".git" w); [| reflexivity].
  destruct (succeeded (outcome which_cmd w)); [| reflexivity].
  destruct (succeeded (outcome rewrite_cmd w1)); [| reflexivity].
  destruct (succeeded (outcome push_cmd (after rewrite_cmd w1))); reflexivity.
Qed.

(** Every run has one of the five shapes. *)
Lemma main_shape (w : World) :
  exists c p,
    main (start w) = (c, p) /\
    run_shape (os_path_exists ".git" w) (exit_status c) (printed p) (launched p).
Proof.
  rewrite main_eq.
  destruct (os_path_exists ".git" w).
  2:{ do 2 eexists. split; [reflexivity | apply NotARepository]. }
  destruct (succeeded (outcome which_cmd w)) eqn:Hw.
  2:{ do 2 eexists. split; [reflexivity | apply ToolMissing; exact Hw]. }
  set (w1 := after backup_cmd (after which_cmd w)).
  destruct (succeeded (outcome rewrite_cmd w1)) eqn:Hr.
  - destruct (succeeded (outcome push_cmd (after rewrite_cmd w1))) eqn:Hp;
      do 2 eexists; (split; [reflexivity |]); cbn [exit_status printed launched].
    + apply (Cleaned _ _ _ _ Hw Hr Hp).
    + apply (PushFailed _ _ _ _ Hw Hr Hp).
  - do 2 eexists. split; [reflexivity |]. cbn [exit_status printed launched].
    apply (RewriteFailed _ _ _ Hw Hr).
Qed.

Lemma run_script_shape (w : World) :
  run_shape (os_path_exists ".git" w) (status w) (output w) (trace w).
Proof.
  unfold status, output, trace, run_script.
  destruct (main_shape w) as (c & p & -> & H). exact H.
Qed.

(** What [clean_git_history] returns, from any state. *)
Lemma clean_git_history_result (p : process) :
  let w1 := after backup_cmd (world p) in
  fst (clean_git_history p) =
  Normal (succeeded (outcome rewrite_cmd w1)
          && succeeded (outcome push_cmd (after rewrite_cmd w1))).
Proof.
  intro w1. rewrite clean_git_history_eq. fold w1.
  destruct (succeeded (outcome rewrite_cmd w1)); [| reflexivity].
  destruct (succeeded (outcome push_cmd (after rewrite_cmd w1))); reflexivity.
Qed.

(** The four command lines are pairwise different. *)
Lemma cmd_neq (a b : string) : String.eqb a b = false -> a <> b.
Proof. intros H E. apply String.eqb_eq in E. congruence. Qed.

Ltac cmd_clash :=
  match goal with
  | H : ?a = ?b :> string |- _ =>
      exfalso; revert H; apply cmd_neq; vm_compute; reflexivity
  end.

(** Work through membership of an event in an explicit trace. *)
Ltac in_trace :=
  repeat match goal with
    | H : launches _ _ |- _ => destruct H as [? H]
    | H : In _ (_ :: _) |- _ => destruct H as [H | H]
    | H : In _ [] |- _ => destruct H
    | H : mkEvent _ _ = mkEvent _ _ |- _ =>
        injection H; clear H; intros; try cmd_clash; subst
    end.

(** Split on the shape of the run from [w]; the goal must still carry
    everything said about [status w], [output w] and [trace w]. *)
Ltac by_shape w :=
  let H := fresh "Hshape" in
  pose proof (run_script_shape w) as H;
  destruct H.

(** ** Properties of a run *)

(** C1, as the script has it: in every run that ends with exit status 0,
    the command creating the branch [backup-before-cleanup] was launched
    before the rewrite was attempted, and the rewrite was attempted after
    it.  Whether the branch creation succeeded is not part of it. *)
Theorem backup_attempted_before_rewrite :
  forall w : World,
    status w = 0%Z ->
    ran_before backup_cmd rewrite_cmd (fun _ => True) (trace w).
Proof.
  intro w. by_shape w; intro Hst; try discriminate Hst.
  exists [mkEvent which_cmd ow], ob, [mkEvent rewrite_cmd orw; mkEvent push_cmd op].
  repeat split.
  - intro Hl. in_trace.
  - exists orw. left. reflexivity.
Qed.

(** C2: in a run where the rewrite command reports failure, the forced
    push is never launched. *)
Theorem no_push_after_failed_rewrite :
  forall (w : World) (o : run_outcome),
    In (mkEvent rewrite_cmd o) (trace w) ->
    succeeded o = false ->
    ~ launches push_cmd (trace w).
Proof.
  intro w. by_shape w; intros o Hin Hfail Hpush; in_trace; congruence.
Qed.

(** C3, as the script has it: started where [os.path.exists(".git")] is
    false, the script ends with exit status 1, prints the line saying this
    is not a git repository and nothing else, and launches no command at
    all -- in particular none of backup, rewrite and push.  Whether the
    directory is a git repository is another question, which the script
    does not ask. *)
Theorem outside_repository_aborts :
  forall w : World,
    os_path_exists ".git" w = false ->
    status w = 1%Z /\
    output w = [not_a_repository_line] /\
    (forall cmd, ~ launches cmd (trace w)).
Proof.
  intro w. by_shape w; intro Hgit; try discriminate Hgit.
  repeat split. intros cmd Hl. in_trace.
Qed.

(** C4: in a run where the probe [which git-filter-repo] fails, the script
    ends with exit status 1 and prints the error and the installation
    hint, and neither backup, rewrite nor push is launched. *)
Theorem missing_tool_aborts :
  forall (w : World) (o : run_outcome),
    In (mkEvent which_cmd o) (trace w) ->
    succeeded o = false ->
    status w = 1%Z /\
    output w = [tool_missing_line; install_hint_line] /\
    ~ launches backup_cmd (trace w) /\
    ~ launches rewrite_cmd (trace w) /\
    ~ launches push_cmd (trace w).
Proof.
  intro w. by_shape w; intros o Hin Hfail; in_trace; try congruence.
  repeat split; intro Hl; in_trace.
Qed.

(** C5: in a run where the rewrite succeeds and the forced push fails,
    the script ends with exit status 1 and prints the diagnostic text of
    the push -- its captured standard error when the command completed --
    right after the line announcing the failure. *)
Theorem failed_push_reported :
  forall (w : World) (orw op : run_outcome),
    In (mkEvent rewrite_cmd orw) (trace w) ->
    succeeded orw = true ->
    In (mkEvent push_cmd op) (trace w) ->
    succeeded op = false ->
    status w = 1%Z /\
    In (diagnostic op) (output w) /\
    (forall r, op = Completes r -> In (stderr r) (output w)) /\
    (exists before rest,
       output w =
       (before ++ "✗ Failed to push to remote:" :: diagnostic op :: rest)%list).
Proof.
  intro w. by_shape w; intros orw' op' Hrw Hrok Hpush Hpfail; in_trace;
    try congruence.
  assert (Hin : In (diagnostic op')
                  (preamble ob ++
                   [ "✓ Successfully cleaned git history";
                     "Force pushing to remote...";
                     "✗ Failed to push to remote:";
                     diagnostic op';
                     failure_line ])%list).
  { apply in_or_app. right. cbn. tauto. }
  repeat split.
  - exact Hin.
  - intros r ->. exact Hin.
  - exists (preamble ob ++
            [ "✓ Successfully cleaned git history";
              "Force pushing to remote..." ])%list, [failure_line].
    tidy_lists. reflexivity.
Qed.

(** C6: in a run where both the rewrite and the forced push succeed, the
    script ends with exit status 0, and its output has the celebration
    line and the restore instruction, which names the branch
    [backup-before-cleanup]. *)
Theorem full_success_reported :
  forall (w : World) (orw op : run_outcome),
    In (mkEvent rewrite_cmd orw) (trace w) ->
    succeeded orw = true ->
    In (mkEvent push_cmd op) (trace w) ->
    succeeded op = true ->
    status w = 0%Z /\
    In celebration_line (output w) /\
    In restore_line (output w) /\
    contains "backup-before-cleanup" restore_line = true.
Proof.
  intro w. by_shape w; intros orw' op' Hrw Hrok Hpush Hpok; in_trace;
    try congruence.
  repeat split.
  - apply in_or_app. right. cbn. tauto.
  - apply in_or_app. right. cbn. tauto.
Qed.

(** C7: in a run where the creation of the backup branch fails, what the
    script prints about it is the warning and nothing else, between the
    opening line and the announcement of the rewrite; the rewrite is the
    next command launched; and the exit status is 0 exactly when rewrite
    and push both succeed, so the failed backup alone never makes the run
    fail. *)
Theorem failed_backup_only_warns :
  forall (w : World) (ob : run_outcome),
    In (mkEvent backup_cmd ob) (trace w) ->
    succeeded ob = false ->
    (exists rest,
       output w =
       "Cleaning git history to remove secrets..." ::
       backup_warning_line ::
       "Running git-filter-repo to remove .env files from history..." ::
       rest) /\
    (exists ow orw rest,
       trace w =
       mkEvent which_cmd ow :: mkEvent backup_cmd ob :: mkEvent rewrite_cmd orw ::
       rest) /\
    (status w = 0%Z <->
     exists orw op,
       In (mkEvent rewrite_cmd orw) (trace w) /\ succeeded orw = true /\
       In (mkEvent push_cmd op) (trace w) /\ succeeded op = true).
Proof.
  intro w. by_shape w; intros ob' Hb Hbfail; in_trace;
    unfold preamble, backup_report; rewrite Hbfail; cbn [app];
    (split; [eexists; reflexivity |]);
    (split; [do 3 eexists; reflexivity |]).
  - split; [intro Hst; discriminate Hst |].
    intros (orw' & op' & H1 & H2 & H3 & H4). in_trace.
  - split; [intro Hst; discriminate Hst |].
    intros (orw' & op' & H1' & H2 & H3 & H4). in_trace. congruence.
  - split; [| reflexivity].
    intros _. exists orw, op. repeat split; cbn; tauto.
Qed.

(** ** Further properties of a run *)

(** X1: in a run where the rewrite reports failure, the script ends with
    exit status 1 and its last three lines are the announcement of the
    failure, the diagnostic text of the rewrite (captured standard error,
    or the text of the exception), and the closing failure line. *)
Theorem failed_rewrite_reported :
  forall (w : World) (o : run_outcome),
    In (mkEvent rewrite_cmd o) (trace w) ->
    succeeded o = false ->
    status w = 1%Z /\
    exists before,
      output w =
      (before ++ [ "✗ Failed to clean git history:"; diagnostic o; failure_line ])%list.
Proof.
  intro w. by_shape w; intros o Hin Hfail; in_trace; try congruence.
  split; [reflexivity |]. exists (preamble ob). reflexivity.
Qed.

(** X2: the commands of a run, in the order of their launch, are an
    initial part of the fixed sequence probe, branch creation, rewrite,
    push.  So no other command is ever launched, none is launched twice
    (nothing is retried), and none overtakes an earlier one. *)
Theorem trace_is_prefix_of_plan :
  forall w : World,
    exists n,
      map ev_cmd (trace w) = firstn n [which_cmd; backup_cmd; rewrite_cmd; push_cmd].
Proof.
  intro w. by_shape w.
  - exists 0%nat. reflexivity.
  - exists 1%nat. reflexivity.
  - exists 3%nat. reflexivity.
  - exists 4%nat. reflexivity.
  - exists 4%nat. reflexivity.
Qed.

(** X3: when each command is launched.  The probe runs exactly when
    [.git] exists; the branch creation runs exactly when the probe
    succeeded; the rewrite runs exactly when the branch creation was
    launched, whatever came of it; the push runs exactly when the rewrite
    succeeded. *)
Theorem launch_conditions :
  forall w : World,
    (launches which_cmd (trace w) <-> os_path_exists ".git" w = true) /\
    (launches backup_cmd (trace w) <->
     exists o, In (mkEvent which_cmd o) (trace w) /\ succeeded o = true) /\
    (launches rewrite_cmd (trace w) <-> launches backup_cmd (trace w)) /\
    (launches push_cmd (trace w) <->
     exists o, In (mkEvent rewrite_cmd o) (trace w) /\ succeeded o = true).
Proof.
  intro w. unfold launches. by_shape w; repeat split.
  all: try (intros [o Hin]; in_trace; fail).
  all: try (intros (o & Hin & Hok); in_trace; congruence).
  all: try discriminate.
  all: try (intros _; eexists; cbn; tauto).
  all: try (intros _; eexists; split; [cbn; tauto | assumption]).
Qed.

(** Under the standing assumptions the exit status is 0 or 1, and the
    last line printed tells which: after status 0 it is the restore
    instruction, after status 1 one of the three lines that close a failed
    run. *)
Lemma last_line_tells_status :
  forall w : World,
    (status w = 0%Z /\ last (output w) "" = restore_line) \/
    (status w = 1%Z /\
     (last (output w) "" = not_a_repository_line \/
      last (output w) "" = install_hint_line \/
      last (output w) "" = failure_line)).
Proof.
  intro w. by_shape w; unfold preamble; cbn [app last]; tauto.
Qed.

(** X5: what a run shows depends on little of what the commands did.
    Two runs print the same lines and end with the same status as soon as
    they agree on the existence of [.git], on the success or failure of
    each of the four commands, and on the diagnostic text of rewrite and
    push.  The standard output of the commands, the value of a non-zero
    exit status, and the diagnostic text of the probe and of the branch
    creation are never shown. *)
Theorem output_ignores_the_rest :
  forall w w' : World,
    let w1 := after backup_cmd (after which_cmd w) in
    let w1' := after backup_cmd (after which_cmd w') in
    os_path_exists ".git" w = os_path_exists ".git" w' ->
    succeeded (outcome which_cmd w) = succeeded (outcome which_cmd w') ->
    succeeded (outcome backup_cmd (after which_cmd w)) =
    succeeded (outcome backup_cmd (after which_cmd w')) ->
    succeeded (outcome rewrite_cmd w1) = succeeded (outcome rewrite_cmd w1') ->
    diagnostic (outcome rewrite_cmd w1) = diagnostic (outcome rewrite_cmd w1') ->
    succeeded (outcome push_cmd (after rewrite_cmd w1)) =
    succeeded (outcome push_cmd (after rewrite_cmd w1')) ->
    diagnostic (outcome push_cmd (after rewrite_cmd w1)) =
    diagnostic (outcome push_cmd (after rewrite_cmd w1')) ->
    status w = status w' /\ output w = output w'.
Proof.
  intros w w' w1 w1' Hgit Hw Hb Hr Hrd Hp Hpd.
  unfold status, output, run_script. rewrite !main_eq.
  fold w1 w1'. unfold preamble, backup_report.
  rewrite <- Hgit, <- Hw, <- Hb, <- Hr, <- Hrd, <- Hp, <- Hpd.
  destruct (os_path_exists ".git" w); [| split; reflexivity].
  destruct (succeeded (outcome which_cmd w)); [| split; reflexivity].
  destruct (succeeded (outcome rewrite_cmd w1)); [| split; reflexivity].
  destruct (succeeded (outcome push_cmd (after rewrite_cmd w1))); split; reflexivity.
Qed.

(** Under the standing assumptions [clean_git_history] comes back with a
    boolean from any state, keeps what was printed and launched before it,
    prints its opening line first, and launches the branch creation and
    the rewrite, followed by the push or by nothing. *)
Lemma clean_git_history_returns :
  forall p : process,
    exists (b : bool) (p' : process),
      clean_git_history p = (Normal b, p') /\
      (exists lines,
         printed p' =
         (printed p ++ "Cleaning git history to remove secrets..." :: lines)%list) /\
      (exists evs,
         launched p' = (launched p ++ evs)%list /\
         (map ev_cmd evs = [backup_cmd; rewrite_cmd] \/
          map ev_cmd evs = [backup_cmd; rewrite_cmd; push_cmd])).
Proof.
  intro p. rewrite clean_git_history_eq. unfold preamble.
  destruct (succeeded (outcome rewrite_cmd (after backup_cmd (world p))));
    [destruct (succeeded (outcome push_cmd
                 (after rewrite_cmd (after backup_cmd (world p))))) |];
    do 2 eexists; (split; [reflexivity |]); cbn [printed launched app]; split;
    try (eexists; reflexivity);
    eexists; (split; [reflexivity |]); cbn; tauto.
Qed.

(** X7: in a run where the creation of the backup branch succeeds, the
    script says so: the confirmation naming the branch is the second line
    printed, between the opening line and the announcement of the
    rewrite. *)
Theorem created_backup_confirmed :
  forall (w : World) (ob : run_outcome),
    In (mkEvent backup_cmd ob) (trace w) ->
    succeeded ob = true ->
    exists rest,
      output w =
      "Cleaning git history to remove secrets..." ::
      backup_created_line ::
      "Running git-filter-repo to remove .env files from history..." ::
      rest.
Proof.
  intro w. by_shape w; intros ob' Hb Hbok; in_trace;
    unfold preamble, backup_report; rewrite Hbok; cbn [app];
    eexists; reflexivity.
Qed.

End Script.

Arguments world {World} p.
Arguments printed {World} p.
Arguments launched {World} p.

(** ** The script in the concrete world *)

Abbreviation sim_status := (status Sim.world Sim.os_path_exists Sim.subprocess_run).
Abbreviation sim_output := (output Sim.world Sim.os_path_exists Sim.subprocess_run).
Abbreviation sim_trace := (trace Sim.world Sim.os_path_exists Sim.subprocess_run).
Abbreviation sim_clean_git_history := (clean_git_history Sim.world Sim.subprocess_run).
Abbreviation sim_run_command := (run_command Sim.world Sim.subprocess_run).
Abbreviation sim_start := (start Sim.world).

Lemma sim_path_eqb_eq (p q : Sim.path) : Sim.path_eqb p q = true <-> p = q.
Proof.
  revert q. induction p as [| a p IH]; intros [| b q]; cbn; try (split; [discriminate | discriminate]).
  - tauto.
  - rewrite andb_true_iff, String.eqb_eq, IH. split.
    + intros [-> ->]. reflexivity.
    + intros [= -> ->]. split; reflexivity.
Qed.

(** In the concrete world a name that [os.stat] resolves exists. *)
Lemma sim_os_path_exists_stat (name : string) (w : Sim.world) :
  Sim.os_path_exists name w = true <-> exists k, Sim.stat_here name w = Some k.
Proof.
  unfold Sim.os_path_exists. destruct (Sim.stat_here name w) as [k |]; split.
  - intros _. exists k. reflexivity.
  - reflexivity.
  - discriminate.
  - intros [k Hk]. discriminate Hk.
Qed.

(** A name stored as a plain file or as a directory resolves to itself. *)
Lemma sim_stat_direct (name : string) (w : Sim.world) (k : Sim.node) :
  Sim.entry name w = Some k ->
  (forall t, k <> Sim.Link t) ->
  Sim.stat_here name w = Some k.
Proof.
  unfold Sim.entry, Sim.stat_here. intros Hk Hnolink.
  destruct (length (Sim.entries w)); cbn; rewrite Hk;
    destruct k as [| | t]; try reflexivity; destruct (Hnolink t eq_refl).
Qed.

(** A name that is not stored does not resolve. *)
Lemma sim_stat_missing (name : string) (w : Sim.world) :
  Sim.entry name w = None -> Sim.stat_here name w = None.
Proof.
  unfold Sim.entry, Sim.stat_here. intros Hk.
  destruct (length (Sim.entries w)); cbn; rewrite Hk; reflexivity.
Qed.

(** A link to a name that is not stored does not resolve. *)
Lemma sim_stat_dangling (name : string) (w : Sim.world) (t : Sim.path) :
  Sim.entry name w = Some (Sim.Link t) ->
  Sim.lookup t (Sim.entries w) = None ->
  Sim.stat_here name w = None.
Proof.
  unfold Sim.entry, Sim.stat_here. intros Hk Ht.
  destruct (length (Sim.entries w)) as [| n]; cbn; rewrite Hk; [reflexivity |].
  destruct n; cbn; rewrite Ht; reflexivity.
Qed.

(** ** The two claims that speak about the surroundings *)

(** C9, as the script has it: the repository check looks at one thing
    only, the answer of [os.path.exists(".git")].  In any world the script
    goes on to the tool probe exactly when that answer is true, and stops
    with the error line, status 1 and no command launched exactly when it
    is false.  In the concrete world: an entry [.git] of the current
    directory that is a plain file or a directory is enough to pass,
    repository or not; a [.git] that is a link to a missing name fails;
    and a current directory without an entry [.git] fails, whatever the
    rest of the tree holds -- so also below a real checkout, whose [.git]
    sits further up. *)
Theorem repository_check_is_os_path_exists :
  (forall (World : Type) (os_path_exists : string -> World -> bool)
          (subprocess_run : string -> World -> run_outcome * World) (w : World),
      (os_path_exists ".git" w = true <->
       exists o rest,
         trace World os_path_exists subprocess_run w = mkEvent which_cmd o :: rest) /\
      (os_path_exists ".git" w = false <->
       status World os_path_exists subprocess_run w = 1%Z /\
       output World os_path_exists subprocess_run w = [not_a_repository_line] /\
       trace World os_path_exists subprocess_run w = [])) /\
  (forall w : Sim.world,
      Sim.entry ".git" w = Some Sim.File \/ Sim.entry ".git" w = Some Sim.Dir ->
      exists o rest, sim_trace w = mkEvent which_cmd o :: rest) /\
  (forall (w : Sim.world) (t : Sim.path),
      Sim.entry ".git" w = Some (Sim.Link t) ->
      Sim.lookup t (Sim.entries w) = None ->
      sim_status w = 1%Z /\
      sim_output w = [not_a_repository_line] /\
      sim_trace w = []) /\
  (forall w : Sim.world,
      Sim.entry ".git" w = None ->
      sim_status w = 1%Z /\
      sim_output w = [not_a_repository_line] /\
      sim_trace w = []).
Proof.
  assert (generic :
    forall (World : Type) (os_path_exists : string -> World -> bool)
           (subprocess_run : string -> World -> run_outcome * World) (w : World),
      (os_path_exists ".git" w = true <->
       exists o rest,
         trace World os_path_exists subprocess_run w = mkEvent which_cmd o :: rest) /\
      (os_path_exists ".git" w = false <->
       status World os_path_exists subprocess_run w = 1%Z /\
       output World os_path_exists subprocess_run w = [not_a_repository_line] /\
       trace World os_path_exists subprocess_run w = [])).
  { intros World ope sr w.
    pose proof (run_script_shape World ope sr w) as Hshape.
    destruct Hshape; (split; split).
    all: try (intros _; do 2 eexists; reflexivity).
    all: try (intros _; repeat split; reflexivity).
    all: try reflexivity.
    all: try discriminate.
    all: try (intros (_ & _ & Hnil); discriminate Hnil).
    all: intros (o & rest & Hnil); discriminate Hnil. }
  assert (missing : forall w : Sim.world,
             Sim.stat_here ".git" w = None ->
             sim_status w = 1%Z /\
             sim_output w = [not_a_repository_line] /\
             sim_trace w = []).
  { intros w Hnone.
    apply (generic Sim.world Sim.os_path_exists Sim.subprocess_run w).
    unfold Sim.os_path_exists. rewrite Hnone. reflexivity. }
  split; [exact generic | split; [| split]].
  - intros w Hdirect.
    apply (generic Sim.world Sim.os_path_exists Sim.subprocess_run w).
    apply sim_os_path_exists_stat.
    destruct Hdirect as [Hk | Hk]; eexists; apply (sim_stat_direct _ _ _ Hk);
      intros t; discriminate.
  - intros w t Hk Ht. apply missing. exact (sim_stat_dangling _ _ _ Hk Ht).
  - intros w Hk. apply missing. exact (sim_stat_missing _ _ Hk).
Qed.

(** C10: [clean_git_history] returns true exactly when the rewrite and the
    forced push both report success.  From any state its result is the
    conjunction of those two flags, in which the outcome of the branch
    creation does not occur; the exit status of the script is 0 exactly
    when, past the two preconditions, both flags are true; and in the
    concrete world, replacing the outcome of the branch creation by any
    other changes neither the result nor the exit status. *)
Theorem clean_result_is_rewrite_and_push :
  (forall (World : Type) (subprocess_run : string -> World -> run_outcome * World)
          (p : process World),
      let w1 := after World subprocess_run backup_cmd (world p) in
      let orw := outcome World subprocess_run rewrite_cmd w1 in
      let op := outcome World subprocess_run push_cmd
                  (after World subprocess_run rewrite_cmd w1) in
      fst (clean_git_history World subprocess_run p) =
      Normal (succeeded orw && succeeded op) /\
      (fst (clean_git_history World subprocess_run p) = Normal true <->
       succeeded orw = true /\ succeeded op = true)) /\
  (forall (World : Type) (os_path_exists : string -> World -> bool)
          (subprocess_run : string -> World -> run_outcome * World) (w : World),
      status World os_path_exists subprocess_run w = 0%Z <->
      exists ow ob orw op,
        trace World os_path_exists subprocess_run w =
        [ mkEvent which_cmd ow; mkEvent backup_cmd ob;
          mkEvent rewrite_cmd orw; mkEvent push_cmd op ] /\
        succeeded orw = true /\ succeeded op = true) /\
  (forall (dir : Sim.path) (tree : list (Sim.path * Sim.node))
          (table : string -> run_outcome) (ob ob' : run_outcome),
      let w := Sim.mkWorld dir tree (Sim.override table backup_cmd ob) in
      let w' := Sim.mkWorld dir tree (Sim.override table backup_cmd ob') in
      fst (sim_clean_git_history (sim_start w)) =
      fst (sim_clean_git_history (sim_start w')) /\
      sim_status w = sim_status w').
Proof.
  split; [| split].
  - intros World sr p w1 orw op.
    pose proof (clean_git_history_result World sr p) as Hres.
    cbv zeta in Hres. fold w1 in Hres. fold orw in Hres. fold op in Hres.
    split; [exact Hres |].
    rewrite Hres. destruct (succeeded orw), (succeeded op); cbn; split;
      try (intros [= ?]); try (intros [? ?]); try discriminate;
      try reflexivity; try (split; reflexivity).
  - intros World ope sr w.
    pose proof (run_script_shape World ope sr w) as Hshape.
    destruct Hshape; split; try discriminate.
    all: try (intros (? & ? & ? & ? & Ht & _); discriminate Ht).
    + intros (? & ? & ? & ? & Ht & _ & Hp). injection Ht as _ _ _ ->. congruence.
    + intros _. do 4 eexists. repeat split; eassumption.
    + reflexivity.
  - intros dir tree table ob ob' w w'. split.
    + rewrite !clean_git_history_result. reflexivity.
    + rewrite !status_eq. reflexivity.
Qed.

(** ** Runs in the concrete world *)

(** What the script does when the backup branch is already there. *)
Lemma branch_taken_trace :
  sim_trace Sim.branch_taken =
  [ mkEvent which_cmd Sim.ok;
    mkEvent backup_cmd
      (Sim.failed 128 "fatal: a branch named 'backup-before-cleanup' already exists");
    mkEvent rewrite_cmd Sim.ok;
    mkEvent push_cmd Sim.ok ].
Proof. reflexivity. Qed.

(** [run_command] on a command that completes, on one that ends with a
    non-zero status, and when the shell cannot be started. *)
Example run_command_completed :
  fst (sim_run_command "which git-filter-repo" (sim_start (Sim.in_repo Sim.all_ok)))
  = Normal (true, "", "").
Proof. reflexivity. Qed.

Example run_command_nonzero :
  fst (sim_run_command "which git-filter-repo" (sim_start Sim.tool_missing))
  = Normal (false, "", "").
Proof. reflexivity. Qed.

Example run_command_exception :
  fst (sim_run_command "which git-filter-repo" (sim_start Sim.no_shell))
  = Normal (false, "", "[Errno 2] No such file or directory: '/bin/sh'").
Proof. reflexivity. Qed.

(** C1 as worded fails: with the branch [backup-before-cleanup] already
    there, [git branch] ends with status 128, yet rewrite and push succeed
    and the run ends with exit status 0 -- no successful branch creation
    came before the rewrite. *)
Lemma successful_run_without_backup :
  sim_status Sim.branch_taken = 0%Z /\
  ~ ran_before backup_cmd rewrite_cmd (fun o => succeeded o = true)
      (sim_trace Sim.branch_taken).
Proof.
  split; [reflexivity |].
  intros (pre & o & post & Ht & Hok & _ & _).
  rewrite branch_taken_trace in Ht.
  destruct pre as [| e0 [| e1 [| e2 [| e3 [| e4 pre]]]]]; cbn in Ht;
    try discriminate Ht;
    injection Ht; clear Ht; intros; subst;
    try (vm_compute in Hok; discriminate Hok);
    match goal with
    | H : _ = _ :> string |- _ => vm_compute in H; discriminate H
    end.
Qed.

Lemma backup_attempted_before_rewrite_witness :
  sim_status Sim.branch_taken = 0%Z /\
  ran_before backup_cmd rewrite_cmd (fun _ => True) (sim_trace Sim.branch_taken).
Proof.
  split; [reflexivity |].
  apply (backup_attempted_before_rewrite
           Sim.world Sim.os_path_exists Sim.subprocess_run Sim.branch_taken).
  reflexivity.
Defined.

Lemma no_push_after_failed_rewrite_witness :
  sim_status Sim.rewrite_fails = 1%Z /\
  ~ launches push_cmd (sim_trace Sim.rewrite_fails).
Proof.
  split; [reflexivity |].
  apply (no_push_after_failed_rewrite
           Sim.world Sim.os_path_exists Sim.subprocess_run Sim.rewrite_fails
           (Sim.failed 1 "Aborting: Refusing to destructively overwrite repo history")).
  - right. right. left. reflexivity.
  - reflexivity.
Defined.

Lemma outside_repository_aborts_witness :
  Sim.os_path_exists ".git" Sim.outside = false /\
  sim_status Sim.outside = 1%Z /\
  sim_output Sim.outside = [not_a_repository_line] /\
  (forall cmd, ~ launches cmd (sim_trace Sim.outside)).
Proof.
  split; [reflexivity |].
  apply (outside_repository_aborts
           Sim.world Sim.os_path_exists Sim.subprocess_run Sim.outside).
  reflexivity.
Defined.

Lemma missing_tool_aborts_witness :
  sim_status Sim.tool_missing = 1%Z /\
  sim_output Sim.tool_missing = [tool_missing_line; install_hint_line] /\
  ~ launches backup_cmd (sim_trace Sim.tool_missing) /\
  ~ launches rewrite_cmd (sim_trace Sim.tool_missing) /\
  ~ launches push_cmd (sim_trace Sim.tool_missing).
Proof.
  apply (missing_tool_aborts
           Sim.world Sim.os_path_exists Sim.subprocess_run Sim.tool_missing
           (Sim.failed 1 "")).
  - left. reflexivity.
  - reflexivity.
Defined.

Lemma failed_push_reported_witness :
  sim_status Sim.push_rejected = 1%Z /\
  In "remote: error: GH006: Protected branch update failed"
     (sim_output Sim.push_rejected).
Proof.
  pose proof (failed_push_reported
                Sim.world Sim.os_path_exists Sim.subprocess_run Sim.push_rejected
                Sim.ok
                (Sim.failed 1 "remote: error: GH006: Protected branch update failed"))
    as H.
  destruct H as (Hst & Hin & _).
  - right. right. left. reflexivity.
  - reflexivity.
  - right. right. right. left. reflexivity.
  - reflexivity.
  - split; [exact Hst | exact Hin].
Defined.

Lemma full_success_reported_witness :
  sim_status (Sim.in_repo Sim.all_ok) = 0%Z /\
  In celebration_line (sim_output (Sim.in_repo Sim.all_ok)) /\
  In restore_line (sim_output (Sim.in_repo Sim.all_ok)) /\
  contains "backup-before-cleanup" restore_line = true.
Proof.
  apply (full_success_reported
           Sim.world Sim.os_path_exists Sim.subprocess_run (Sim.in_repo Sim.all_ok)
           Sim.ok Sim.ok).
  - right. right. left. reflexivity.
  - reflexivity.
  - right. right. right. left. reflexivity.
  - reflexivity.
Defined.

Lemma failed_backup_only_warns_witness :
  sim_status Sim.branch_taken = 0%Z /\
  exists rest,
    sim_output Sim.branch_taken =
    "Cleaning git history to remove secrets..." ::
    backup_warning_line ::
    "Running git-filter-repo to remove .env files from history..." ::
    rest.
Proof.
  split; [reflexivity |].
  apply (failed_backup_only_warns
           Sim.world Sim.os_path_exists Sim.subprocess_run Sim.branch_taken
           (Sim.failed 128 "fatal: a branch named 'backup-before-cleanup' already exists")).
  - right. left. reflexivity.
  - reflexivity.
Defined.

Lemma repository_check_is_os_path_exists_witness :
  (exists o rest, sim_trace Sim.dot_git_is_file = mkEvent which_cmd o :: rest) /\
  (sim_status Sim.dot_git_dangling = 1%Z /\
   sim_output Sim.dot_git_dangling = [not_a_repository_line] /\
   sim_trace Sim.dot_git_dangling = []) /\
  (Sim.is_git_repository Sim.in_subdirectory = true /\
   sim_status Sim.in_subdirectory = 1%Z /\
   sim_output Sim.in_subdirectory = [not_a_repository_line] /\
   sim_trace Sim.in_subdirectory = []).
Proof.
  destruct repository_check_is_os_path_exists as (_ & Hdirect & Hdangling & Hnone).
  split; [| split].
  - apply (Hdirect Sim.dot_git_is_file). left. reflexivity.
  - apply (Hdangling Sim.dot_git_dangling ["tmp"; "gone"]); reflexivity.
  - split; [reflexivity |]. apply (Hnone Sim.in_subdirectory). reflexivity.
Defined.

(** C9 as worded fails: the check does not pass for every entry named
    [.git].  Here the current directory has one, a link whose target is
    gone; [os.path.exists] answers false and the script stops with the
    error line. *)
Lemma dangling_dot_git_is_refused :
  Sim.entry ".git" Sim.dot_git_dangling = Some (Sim.Link ["tmp"; "gone"]) /\
  ~ (exists o rest, sim_trace Sim.dot_git_dangling = mkEvent which_cmd o :: rest) /\
  sim_output Sim.dot_git_dangling = [not_a_repository_line].
Proof.
  split; [reflexivity | split; [| reflexivity]].
  intros (o & rest & Ht). discriminate Ht.
Qed.

(** C3 as worded fails: a directory that is no git repository but holds a
    plain file [.git] is not turned away.  The line about not being in a
    repository is never printed, and both the branch creation and the
    rewrite are launched. *)
Lemma bogus_dot_git_is_not_refused :
  Sim.is_git_repository Sim.bogus_dot_git = false /\
  ~ In not_a_repository_line (sim_output Sim.bogus_dot_git) /\
  launches backup_cmd (sim_trace Sim.bogus_dot_git) /\
  launches rewrite_cmd (sim_trace Sim.bogus_dot_git).
Proof.
  split; [reflexivity | split; [| split]].
  - intros Hin. vm_compute in Hin.
    repeat match goal with
      | H : _ \/ _ |- _ => destruct H as [H | H]
      | H : False |- _ => destruct H
      | H : _ = _ |- _ => discriminate H
      end.
  - eexists. right. left. reflexivity.
  - eexists. right. right. left. reflexivity.
Qed.

Lemma failed_rewrite_reported_witness :
  sim_status Sim.rewrite_fails = 1%Z /\
  exists before,
    sim_output Sim.rewrite_fails =
    (before ++
     [ "✗ Failed to clean git history:";
       "Aborting: Refusing to destructively overwrite repo history";
       failure_line ])%list.
Proof.
  apply (failed_rewrite_reported
           Sim.world Sim.os_path_exists Sim.subprocess_run Sim.rewrite_fails
           (Sim.failed 1 "Aborting: Refusing to destructively overwrite repo history")).
  - right. right. left. reflexivity.
  - reflexivity.
Defined.

(** The rewrite fails in both worlds with the same complaint; in the
    second it ends with status 2 instead of 1 and has written to its
    standard output, the probe has printed the path of the tool, and the
    branch creation has left a remark on its standard error. *)
Lemma output_ignores_the_rest_witness :
  let chatty :=
    Sim.in_repo
      (Sim.override
         (Sim.override
            (Sim.override Sim.all_ok
               "which git-filter-repo"
               (Completes (mkCompleted 0 "/usr/local/bin/git-filter-repo" "")))
            "git branch backup-before-cleanup"
            (Completes (mkCompleted 0 "" "hint: branch created")))
         "git-filter-repo --path backend/.env --invert-paths --force"
         (Completes (mkCompleted 2 "Parsed 12 commits"
                       "Aborting: Refusing to destructively overwrite repo history"))) in
  sim_status Sim.rewrite_fails = sim_status chatty /\
  sim_output Sim.rewrite_fails = sim_output chatty.
Proof.
  intro chatty.
  apply (output_ignores_the_rest
           Sim.world Sim.os_path_exists Sim.subprocess_run Sim.rewrite_fails chatty);
    reflexivity.
Defined.

Lemma created_backup_confirmed_witness :
  exists rest,
    sim_output Sim.push_rejected =
    "Cleaning git history to remove secrets..." ::
    backup_created_line ::
    "Running git-filter-repo to remove .env files from history..." ::
    rest.
Proof.
  apply (created_backup_confirmed
           Sim.world Sim.os_path_exists Sim.subprocess_run Sim.push_rejected Sim.ok).
  - right. left. reflexivity.
  - reflexivity.
Defined.

(** ** The script with nothing taken for granted: what carries over *)

Section FullFacts.

Variable World : Type.
Variable ope : string -> World -> bool.
Variable frun : string -> World -> Full.run_ending * World.
Variable fwrite : string -> World -> option string.

(** [run_command] in the full embedding, ending by ending. *)
Lemma full_run_command_eq (cmd : string) (p : Full.process World) :
  Full.run_command World frun cmd p =
  (match fst (frun cmd (Full.world p)) with
   | Full.Returned r => Full.Value ((returncode r =? 0)%Z, stdout r, stderr r)
   | Full.Raised _ m => Full.Value (false, "", m)
   | Full.Interrupted => Full.Exc Full.KeyboardInterrupt
   end,
   Full.mkProcess World (snd (frun cmd (Full.world p))) (Full.printed p)
     (Full.launched p ++
      [Full.mkLaunch cmd (fst (frun cmd (Full.world p)))])%list).
Proof.
  unfold Full.run_command, Full.try_except_Exception, Full.bind, Full.run, Full.ret.
  destruct (frun cmd (Full.world p)) as [e w']. destruct e; reflexivity.
Qed.

(** A computation that never asks for the end of the process. *)
Abbreviation never_exits m :=
  (forall (p : Full.process World) (code : Z),
      fst (m p) <> Full.Exc (Full.Plain (SystemExit code))).

Lemma never_exits_ret {A} (a : A) : never_exits (Full.ret World a).
Proof. intros p code. discriminate. Qed.

Lemma never_exits_bind {A B} (m : Full.Py World A) (k : A -> Full.Py World B) :
  never_exits m -> (forall a, never_exits (k a)) -> never_exits (Full.bind World m k).
Proof.
  intros Hm Hk p code. unfold Full.bind.
  specialize (Hm p). destruct (m p) as [[a | e] p']; cbn in *.
  - apply Hk.
  - intros [= ->]. apply (Hm code). reflexivity.
Qed.

Lemma never_exits_print (s : string) : never_exits (Full.print World fwrite s).
Proof.
  intros p code. unfold Full.print.
  destruct (fwrite s (Full.world p)); discriminate.
Qed.

Lemma never_exits_run_command (cmd : string) :
  never_exits (Full.run_command World frun cmd).
Proof.
  intros p code. rewrite full_run_command_eq. cbn.
  destruct (fst (frun cmd (Full.world p))); discriminate.
Qed.

Ltac never_exits_steps :=
  repeat first
    [ apply never_exits_print
    | apply never_exits_ret
    | apply never_exits_run_command
    | apply never_exits_bind
    | intros [[[] ?] ?]
    | intros ? ].

Lemma never_exits_clean_git_history :
  never_exits (Full.clean_git_history World frun fwrite).
Proof. unfold Full.clean_git_history. never_exits_steps. Qed.

(** *** When nothing goes wrong, the two embeddings agree *)

Section Calm.

Hypothesis never_interrupted : forall cmd w, fst (frun cmd w) <> Full.Interrupted.
Hypothesis always_written : forall s w, fwrite s w = None.

(** A state of the full embedding and one of the first that show the same. *)
Abbreviation same_state q p :=
  (Full.world q = world p /\
   Full.printed q = printed p /\
   map Full.plain_launch (Full.launched q) = launched p).

(** Two computations that, from states showing the same, complete alike
    and leave states showing the same. *)
Abbreviation refines m m' :=
  (forall (q : Full.process World) (p : process World),
      same_state q p ->
      Full.plain_result (fst (m q)) = Some (fst (m' p)) /\
      same_state (snd (m q)) (snd (m' p))).

Lemma refines_ret {A} (a : A) : refines (Full.ret World a) (ret World a).
Proof. intros q p H. split; [reflexivity | exact H]. Qed.

Lemma refines_bind {A B}
  (m : Full.Py World A) (m' : Py World A)
  (k : A -> Full.Py World B) (k' : A -> Py World B) :
  refines m m' ->
  (forall a, refines (k a) (k' a)) ->
  refines (Full.bind World m k) (bind World m' k').
Proof.
  intros Hm Hk q p H. unfold Full.bind, bind.
  destruct (Hm q p H) as [Hres Hst].
  destruct (m q) as [[a | [e |]] q'], (m' p) as [[a' | e'] p'];
    cbn in Hres, Hst; try discriminate Hres.
  - injection Hres as <-. apply Hk. exact Hst.
  - injection Hres as <-. split; [reflexivity | exact Hst].
Qed.

Lemma refines_print (s : string) : refines (Full.print World fwrite s) (print World s).
Proof.
  intros q p (Hw & Hp & Hl). unfold Full.print, print.
  rewrite always_written. cbn. rewrite Hp. repeat split; assumption.
Qed.

Lemma refines_sys_exit {A} (code : Z) :
  refines (@Full.sys_exit World A code) (@sys_exit World A code).
Proof. intros q p H. split; [reflexivity | exact H]. Qed.

Lemma refines_path_exists (name : string) :
  refines (Full.path_exists World ope name) (path_exists World ope name).
Proof.
  intros q p (Hw & Hp & Hl). unfold Full.path_exists, path_exists. cbn.
  rewrite Hw. repeat split; assumption.
Qed.

Lemma refines_run_command (cmd : string) :
  refines (Full.run_command World frun cmd)
          (run_command World (Full.plain_run World frun) cmd).
Proof.
  intros q p (Hw & Hp & Hl).
  rewrite full_run_command_eq, run_command_eq.
  unfold outcome, after, Full.plain_run. cbn [fst snd]. rewrite <- Hw, <- Hp, <- Hl.
  pose proof (never_interrupted cmd (Full.world q)) as Hcalm.
  destruct (fst (frun cmd (Full.world q))) as [r | c m |];
    [| | destruct (Hcalm eq_refl)];
    cbn; rewrite map_app; repeat split; reflexivity.
Qed.

Ltac refines_steps :=
  repeat first
    [ apply refines_print
    | apply refines_ret
    | apply refines_sys_exit
    | apply refines_run_command
    | apply refines_path_exists
    | apply refines_bind
    | intros [[[] ?] ?]
    | intros [] ].

Lemma refines_clean_git_history :
  refines (Full.clean_git_history World frun fwrite)
          (clean_git_history World (Full.plain_run World frun)).
Proof. unfold Full.clean_git_history, clean_git_history. refines_steps. Qed.

Lemma refines_main :
  refines (Full.main World ope frun fwrite)
          (main World ope (Full.plain_run World frun)).
Proof.
  unfold Full.main, main.
  apply refines_bind; [apply refines_path_exists |]. intros here.
  apply refines_bind; [destruct here; cbn [negb]; refines_steps |]. intros _.
  apply refines_bind; [apply refines_run_command |]. intros [[success out] err].
  apply refines_bind; [destruct success; cbn [negb]; refines_steps |]. intros _.
  apply refines_bind; [apply refines_clean_git_history |]. intros [|]; refines_steps.
Qed.

(** Without interrupts and with an output that takes every line, a run of
    the full embedding ends, prints and launches as the first one does. *)
Lemma calm_run_agrees (w : World) :
  Full.status World ope frun fwrite w =
  Full.Exit (status World ope (Full.plain_run World frun) w) /\
  Full.output World ope frun fwrite w = output World ope (Full.plain_run World frun) w /\
  map Full.plain_launch (Full.trace World ope frun fwrite w) =
  trace World ope (Full.plain_run World frun) w.
Proof.
  unfold Full.status, Full.output, Full.trace, Full.run_script,
    status, output, trace, run_script.
  destruct (refines_main (Full.start World w) (start World w)) as (Hres & _ & Hp & Hl).
  { repeat split. }
  split; [| split; assumption].
  destruct (fst (Full.main World ope frun fwrite (Full.start World w))) as [[] | [e |]],
    (fst (main World ope (Full.plain_run World frun) (start World w))) as [[] | e'];
    cbn in Hres; try discriminate Hres.
  - reflexivity.
  - injection Hres as <-. destruct e; reflexivity.
Qed.

(** From any state [clean_git_history] comes back alike in both. *)
Lemma calm_clean_git_history_agrees (q : Full.process World) :
  let p := mkProcess World (Full.world q) (Full.printed q)
             (map Full.plain_launch (Full.launched q)) in
  Full.plain_result (fst (Full.clean_git_history World frun fwrite q)) =
  Some (fst (clean_git_history World (Full.plain_run World frun) p)) /\
  same_state (snd (Full.clean_git_history World frun fwrite q))
             (snd (clean_git_history World (Full.plain_run World frun) p)).
Proof. intro p. apply refines_clean_git_history. repeat split. Qed.

End Calm.

End FullFacts.

Abbreviation lab_run_command := (Full.run_command Full.lab Full.lab_run).
Abbreviation lab_clean_git_history :=
  (Full.clean_git_history Full.lab Full.lab_run Full.lab_write).
Abbreviation lab_status :=
  (Full.status Full.lab Full.lab_exists Full.lab_run Full.lab_write).
Abbreviation lab_output :=
  (Full.output Full.lab Full.lab_exists Full.lab_run Full.lab_write).
Abbreviation lab_start := (Full.start Full.lab).
Abbreviation calm_status :=
  (Full.status Sim.world Sim.os_path_exists Full.sim_run Full.sim_write).
Abbreviation calm_output :=
  (Full.output Sim.world Sim.os_path_exists Full.sim_run Full.sim_write).
Abbreviation calm_clean_git_history :=
  (Full.clean_git_history Sim.world Full.sim_run Full.sim_write).
Abbreviation calm_start := (Full.start Sim.world).

Lemma sim_run_never_interrupted (cmd : string) (w : Sim.world) :
  fst (Full.sim_run cmd w) <> Full.Interrupted.
Proof. unfold Full.sim_run. cbn. destruct (Sim.respond w cmd); discriminate. Qed.

Lemma launch_cmd_plain (l : list Full.launch) :
  map ev_cmd (map Full.plain_launch l) = map Full.launch_cmd l.
Proof. rewrite map_map. apply map_ext. intros []. reflexivity. Qed.

(** C8, as the script has it: [run_command] turns into a triple every
    ending in which [subprocess.run] returns or raises an exception of
    class [Exception], and raises nothing then; a [KeyboardInterrupt]
    passes through it to the caller.  Whenever it returns a triple, the
    flag is true exactly when [subprocess.run] returned with return code
    zero -- a command that ended with status zero but made
    [subprocess.run] raise gives a false flag. *)
Theorem run_command_converts :
  forall (World : Type) (subprocess_run : string -> World -> Full.run_ending * World)
         (cmd : string) (p : Full.process World),
    let e := fst (subprocess_run cmd (Full.world p)) in
    let answer := fst (Full.run_command World subprocess_run cmd p) in
    (forall r, e = Full.Returned r ->
       answer = Full.Value ((returncode r =? 0)%Z, stdout r, stderr r)) /\
    (forall c m, e = Full.Raised c m -> answer = Full.Value (false, "", m)) /\
    (e = Full.Interrupted -> answer = Full.Exc Full.KeyboardInterrupt) /\
    (forall flag out err,
       answer = Full.Value (flag, out, err) ->
       (flag = true <-> exists r, e = Full.Returned r /\ returncode r = 0%Z)).
Proof.
  intros World sr cmd p e answer. subst answer.
  rewrite full_run_command_eq. cbn [fst]. fold e.
  destruct e as [r | c m |]; repeat split; try discriminate.
  - intros r' [= <-]. reflexivity.
  - injection H as <- _ _. intros Hrc. exists r. split; [reflexivity |].
    apply Z.eqb_eq. exact Hrc.
  - injection H as <- _ _. intros (r' & [= <-] & Hrc). apply Z.eqb_eq. exact Hrc.
  - intros c' m' [= _ <-]. reflexivity.
  - injection H as <- _ _. discriminate.
  - intros (r' & Hr & _). discriminate Hr.
Qed.

Lemma run_command_converts_witness :
  fst (lab_run_command "printf '\377'" (lab_start Full.odd_commands)) =
  Full.Value (false, "",
              "'utf-8' codec can't decode byte 0xff in position 0: invalid start byte") /\
  fst (lab_run_command "kill -INT $PPID; sleep 1" (lab_start Full.odd_commands)) =
  Full.Exc Full.KeyboardInterrupt.
Proof.
  split.
  - apply (run_command_converts Full.lab Full.lab_run "printf '\377'"
             (lab_start Full.odd_commands)) with (c := Some 0%Z).
    reflexivity.
  - apply (run_command_converts Full.lab Full.lab_run "kill -INT $PPID; sleep 1"
             (lab_start Full.odd_commands)).
    reflexivity.
Defined.

(** C8 as worded fails twice.  A command that interrupts the script makes
    [run_command] raise, and a command that ends with exit status zero
    after writing a byte that is no text gets a false flag. *)
Lemma run_command_raises_and_misreports :
  fst (lab_run_command "kill -INT $PPID; sleep 1" (lab_start Full.odd_commands)) =
  Full.Exc Full.KeyboardInterrupt /\
  Full.exit_code_of (fst (Full.lab_run "printf '\377'" Full.odd_commands)) = Some 0%Z /\
  fst (lab_run_command "printf '\377'" (lab_start Full.odd_commands)) =
  Full.Value (false, "",
              "'utf-8' codec can't decode byte 0xff in position 0: invalid start byte").
Proof. repeat split. Qed.

(** X4: when no command is interrupted and every line can be written,
    the run ends with exit status 0 or 1, and the last line printed tells
    which: after status 0 it is the restore instruction, after status 1
    one of the three lines that close a failed run. *)
Theorem calm_last_line_tells_status :
  forall (World : Type) (os_path_exists : string -> World -> bool)
         (subprocess_run : string -> World -> Full.run_ending * World)
         (stdout_write : string -> World -> option string) (w : World),
    (forall cmd w', fst (subprocess_run cmd w') <> Full.Interrupted) ->
    (forall s w', stdout_write s w' = None) ->
    let ends := Full.status World os_path_exists subprocess_run stdout_write w in
    let final := last (Full.output World os_path_exists subprocess_run stdout_write w) "" in
    (ends = Full.Exit 0 /\ final = restore_line) \/
    (ends = Full.Exit 1 /\
     (final = not_a_repository_line \/
      final = install_hint_line \/
      final = failure_line)).
Proof.
  intros World ope frun fwrite w Hcalm Hwrite ends final. subst ends final.
  destruct (calm_run_agrees World ope frun fwrite Hcalm Hwrite w) as (-> & -> & _).
  destruct (last_line_tells_status World ope (Full.plain_run World frun) w)
    as [[-> Hl] | [-> Hl]]; [left | right]; split; auto.
Qed.

Lemma calm_last_line_tells_status_witness :
  (calm_status (Sim.in_repo Sim.all_ok) = Full.Exit 0 /\
   last (calm_output (Sim.in_repo Sim.all_ok)) "" = restore_line) /\
  (calm_status Sim.push_rejected = Full.Exit 1 /\
   last (calm_output Sim.push_rejected) "" = failure_line).
Proof.
  split.
  - destruct (calm_last_line_tells_status
                Sim.world Sim.os_path_exists Full.sim_run Full.sim_write
                (Sim.in_repo Sim.all_ok) sim_run_never_interrupted
                (fun _ _ => eq_refl))
      as [H | [H _]]; [exact H | discriminate H].
  - destruct (calm_last_line_tells_status
                Sim.world Sim.os_path_exists Full.sim_run Full.sim_write
                Sim.push_rejected sim_run_never_interrupted
                (fun _ _ => eq_refl))
      as [[H _] | [H _]]; [discriminate H | split; [exact H | reflexivity]].
Defined.

(** X6: when no command is interrupted and every line can be written,
    [clean_git_history] comes back with a boolean from any state.  It
    keeps what was printed before it, prints its opening line first, and
    adds to the commands launched the branch creation and the rewrite,
    followed by the push or by nothing. *)
Theorem calm_clean_git_history_returns :
  forall (World : Type)
         (subprocess_run : string -> World -> Full.run_ending * World)
         (stdout_write : string -> World -> option string)
         (p : Full.process World),
    (forall cmd w', fst (subprocess_run cmd w') <> Full.Interrupted) ->
    (forall s w', stdout_write s w' = None) ->
    exists (b : bool) (p' : Full.process World),
      Full.clean_git_history World subprocess_run stdout_write p = (Full.Value b, p') /\
      (exists lines,
         Full.printed p' =
         (Full.printed p ++ "Cleaning git history to remove secrets..." :: lines)%list) /\
      (map Full.launch_cmd (Full.launched p') =
       (map Full.launch_cmd (Full.launched p) ++ [backup_cmd; rewrite_cmd])%list \/
       map Full.launch_cmd (Full.launched p') =
       (map Full.launch_cmd (Full.launched p) ++ [backup_cmd; rewrite_cmd; push_cmd])%list).
Proof.
  intros World frun fwrite q Hcalm Hwrite.
  destruct (calm_clean_git_history_agrees World frun fwrite Hcalm Hwrite q)
    as (Hres & _ & Hp & Hl).
  destruct (clean_git_history_returns World (Full.plain_run World frun)
              (mkProcess World (Full.world q) (Full.printed q)
                 (map Full.plain_launch (Full.launched q))))
    as (b & p' & Heq & (lines & Hlines) & (evs & Hevs & Hcmds)).
  rewrite Heq in Hres, Hp, Hl. cbn [fst snd printed launched] in Hres, Hp, Hl, Hlines, Hevs.
  destruct (Full.clean_git_history World frun fwrite q) as [c q'].
  cbn [fst snd] in Hres, Hp, Hl.
  destruct c as [b' | [e |]]; cbn in Hres; try discriminate Hres.
  injection Hres as ->.
  exists b, q'. split; [reflexivity | split].
  - exists lines. rewrite Hp. exact Hlines.
  - rewrite <- !launch_cmd_plain, Hl, Hevs, map_app.
    destruct Hcmds as [-> | ->]; [left | right]; reflexivity.
Qed.

Lemma calm_clean_git_history_returns_witness :
  exists (b : bool) (p' : Full.process Sim.world),
    calm_clean_git_history (calm_start Sim.rewrite_fails) = (Full.Value b, p') /\
    map Full.launch_cmd (Full.launched p') = [backup_cmd; rewrite_cmd].
Proof.
  destruct (calm_clean_git_history_returns
              Sim.world Full.sim_run Full.sim_write (calm_start Sim.rewrite_fails)
              sim_run_never_interrupted (fun _ _ => eq_refl))
    as (b & p' & Heq & _ & _).
  exists b, p'. split; [exact Heq |].
  change p' with (snd (Full.Value b, p')). rewrite <- Heq. reflexivity.
Defined.

(** X8: [clean_git_history] never ends the process itself.  Whatever the
    commands and the output do, what leaves it is a boolean, an exception
    of [print], or an interrupt -- never [SystemExit]; the exit status is
    decided by its caller alone. *)
Theorem clean_git_history_never_exits :
  forall (World : Type)
         (subprocess_run : string -> World -> Full.run_ending * World)
         (stdout_write : string -> World -> option string)
         (p : Full.process World) (code : Z),
    fst (Full.clean_git_history World subprocess_run stdout_write p) <>
    Full.Exc (Full.Plain (SystemExit code)).
Proof.
  intros World frun fwrite. apply never_exits_clean_git_history.
Qed.

(** What the interrupt and an output that refuses a line do to a run. *)
Example push_interrupted_run :
  lab_status Full.push_interrupted = Full.KilledByInterrupt /\
  last (lab_output Full.push_interrupted) "" = "Force pushing to remote...".
Proof. split; reflexivity. Qed.

Example ascii_terminal_run :
  lab_status Full.ascii_terminal = Full.Exit 1 /\
  lab_output Full.ascii_terminal = [ "Cleaning git history to remove secrets..." ].
Proof. split; reflexivity. Qed.
